(** * webviz_subsurface._abbreviations.reservoir_simulation

    A shallow embedding of the Python module
    [src/webviz_subsurface/_abbreviations/reservoir_simulation.py].

    - Python [str] is [string] (ASCII characters).
    - The two JSON tables loaded at import time are dictionaries:
      [gmap string (gmap string string)], i.e. a JSON object of JSON
      objects of strings.  They are parameters of every function.
    - Python code may raise; the functions run in [PyM], a small monad
      that threads the list of warnings emitted by [warnings.warn] and
      either returns a value or raises an exception. *)

From Stdlib Require Import Ascii String.
From stdpp Require Import base gmap strings list options.

Open Scope string_scope.

(** Let [simpl] compute with string concatenation again. *)
#[local] Arguments String.append : simpl nomatch.

(** ** Python runtime: exceptions, warnings and the [PyM] monad *)

Inductive exn :=
  | KeyError (key : string)
  | IndexError
  | ValueError
  | RecursionError.

(** A computation receives the warnings emitted so far and either raises
    or returns a value together with the updated warnings. *)
Definition PyM (A : Type) : Type := list string -> exn + (A * list string).

Definition ret {A} (a : A) : PyM A := fun w => inr (a, w).

Definition bind {A B} (m : PyM A) (f : A -> PyM B) : PyM B :=
  fun w => match m w with
           | inl e => inl e
           | inr (a, w') => f a w'
           end.

Definition raise {A} (e : exn) : PyM A := fun _ => inl e.

(** [try: m  except KeyError: h] *)
Definition try_except_KeyError {A} (m : PyM A) (h : PyM A) : PyM A :=
  fun w => match m w with
           | inl (KeyError _) => h w
           | r => r
           end.

(** [warnings.warn(msg, UserWarning)] with the default filters: the
    message is recorded and execution continues. *)
Definition warn (msg : string) : PyM unit := fun w => inr (tt, (w ++ [msg])%list).

(** Running a computation from an empty warning log. *)
Definition run {A} (m : PyM A) : exn + (A * list string) := m [].

Global Instance PyM_ret : MRet PyM := @ret.
Global Instance PyM_bind : MBind PyM := fun A B f m => bind m f.

(** [d[k]] on a dictionary. *)
Definition dict_getitem {V} (d : gmap string V) (k : string) : PyM V :=
  match d !! k with
  | Some v => ret v
  | None => raise (KeyError k)
  end.

(** [l[i]] on a list, for a non-negative index. *)
Definition list_getitem {A} (l : list A) (i : nat) : PyM A :=
  match l !! i with
  | Some x => ret x
  | None => raise IndexError
  end.

(** ** Python string operations *)

(** [s.split(c, 1)] for a one-character separator. *)
Fixpoint split_at_first (c : ascii) (s : string) : option (string * string) :=
  match s with
  | EmptyString => None
  | String a s' =>
      if Ascii.eqb a c then Some (EmptyString, s')
      else match split_at_first c s' with
           | Some (l, r) => Some (String a l, r)
           | None => None
           end
  end.

Definition py_split1 (c : ascii) (s : string) : list string :=
  match split_at_first c s with
  | Some (l, r) => [l; r]
  | None => [s]
  end.

(** [c in s] for a one-character string [c]. *)
Fixpoint py_contains (c : ascii) (s : string) : bool :=
  match s with
  | EmptyString => false
  | String a s' => Ascii.eqb a c || py_contains c s'
  end.

(** [sep.join(l)]. *)
Fixpoint py_join (sep : string) (l : list string) : string :=
  match l with
  | [] => EmptyString
  | [x] => x
  | x :: l' => x +:+ sep +:+ py_join sep l'
  end.

(** [s.rstrip(c)] for a one-character string [c]. *)
Fixpoint py_rstrip (c : ascii) (s : string) : string :=
  match s with
  | EmptyString => EmptyString
  | String a s' =>
      let r := py_rstrip c s' in
      if Ascii.eqb a c && String.eqb r EmptyString then EmptyString
      else String a r
  end.

(** [s[i:j]] and [s[i:]] for non-negative bounds (Python clamps them). *)
Definition py_slice (s : string) (i j : nat) : string := substring i (j - i) s.
Definition py_slice_from (s : string) (i : nat) : string :=
  substring i (String.length s - i) s.

(** [s[:-1]]. *)
Definition py_drop_last (s : string) : string :=
  substring 0 (String.length s - 1) s.

Definition py_startswith (s p : string) : bool := String.prefix p s.

Definition py_endswith (s p : string) : bool :=
  String.eqb (py_slice_from s (String.length s - String.length p)) p
  && (String.length p <=? String.length s)%nat.

(** [s.replace(a, b)] for one-character strings [a] and [b]. *)
Fixpoint py_replace_char (a b : ascii) (s : string) : string :=
  match s with
  | EmptyString => EmptyString
  | String x s' => String (if Ascii.eqb x a then b else x) (py_replace_char a b s')
  end.

(** ** The module *)

Section ReservoirSimulation.

(** [RESERVOIR_SIMULATION_UNIT_TERMINOLOGY]: unit set -> raw unit -> friendly unit. *)
Variable RESERVOIR_SIMULATION_UNIT_TERMINOLOGY : gmap string (gmap string string).

(** [SIMULATION_VECTOR_TERMINOLOGY]: vector base name -> JSON object with
    (normally) the fields ["description"] and ["type"]. *)
Variable SIMULATION_VECTOR_TERMINOLOGY : gmap string (gmap string string).

(** [simulation_unit_reformat(ecl_unit, unit_set="METRIC")] *)
Definition simulation_unit_reformat (ecl_unit : string) (unit_set : string) : PyM string :=
  units ← dict_getitem RESERVOIR_SIMULATION_UNIT_TERMINOLOGY unit_set;
  mret (default ecl_unit (units !! ecl_unit)).

(** [simulation_vector_base(vector)]:
    [vector.split(":", 1)[0].split("_", 1)[0]] *)
Definition simulation_vector_base (vector : string) : PyM string :=
  head ← list_getitem (py_split1 ":" vector) 0;
  list_getitem (py_split1 "_" head) 0.

(** Lines 41-55 of [simulation_vector_description]: the region-vector
    special case, computing the new [vector_name] and [fip]. *)
Definition region_vector_name (vector_name : string) : PyM (string * option string) :=
  if (String.length vector_name =? 8)%nat then
    let vector_base_name := py_rstrip "_" (py_slice vector_name 0 5) in
    let fip := py_slice_from vector_name 5 in
    try_except_KeyError
      (metadata ← dict_getitem SIMULATION_VECTOR_TERMINOLOGY vector_base_name;
       type ← dict_getitem metadata "type";
       if String.eqb type "region" then mret (vector_base_name, Some fip)
       else mret (vector_name, None))
      (mret (vector_name, None))
  else mret (vector_name, None).

Definition no_description_warning (vector_name : string) : string :=
  "Could not find description for vector " +:+ vector_name +:+
  ". Consider adding it in the GitHub repo https://github.com/equinor/webviz-subsurface?".

(** [simulation_vector_description(vector)] *)
Definition simulation_vector_description (vector : string) : PyM string :=
  '(vector_name, node) ←
    (if py_contains ":" vector then
       match py_split1 ":" vector with
       | [vn; nd] => mret (vn, Some nd)
       | _ => raise ValueError
       end
     else mret (vector, None));
  '(vector_name, fip) ← region_vector_name vector_name;
  if bool_decide (is_Some (SIMULATION_VECTOR_TERMINOLOGY !! vector_name)) then
    metadata ← dict_getitem SIMULATION_VECTOR_TERMINOLOGY vector_name;
    description ← dict_getitem metadata "description";
    match node with
    | Some nd =>
        type ← dict_getitem metadata "type";
        match fip with
        | Some f =>
            mret (description +:+ ", " +:+ py_replace_char "_" " " type +:+ " " +:+ f
                  +:+ " " +:+ nd)
        | None =>
            mret (description +:+ ", " +:+ py_replace_char "_" " " type +:+ " " +:+ nd)
        end
    | None => mret description
    end
  else
    _ ← warn (no_description_warning vector_name);
    mret vector_name.

End ReservoirSimulation.

(** ** [historical_vector]

    The per-vector metadata [smry_meta] is modelled by its column
    [is_historical], a series indexed by vector name. *)

(** Lines 109-119: the branch taken when [return_historical] is false. *)
Definition historical_vector_reverse (smry_meta : option (gmap string bool))
    (vector : string) (parts : list string) : PyM (option string) :=
  match smry_meta with
  | None =>
      p0 ← list_getitem parts 0;
      if py_endswith p0 "H" &&
         (py_startswith p0 "F" || py_startswith p0 "G" || py_startswith p0 "W")
      then mret (Some (py_join ":" (<[0 := py_drop_last p0]> parts)))
      else mret None
  | Some is_historical =>
      bind (try_except_KeyError (dict_getitem is_historical vector) (ret false))
        (fun is_hist : bool =>
           if is_hist then (p0 ← list_getitem parts 0; mret (Some (py_drop_last p0)))
           else mret None)
  end.

(** The body of [historical_vector]; [recurse] is the function itself. *)
Definition historical_vector_body
    (recurse : string -> option (gmap string bool) -> bool -> PyM (option string))
    (vector : string) (smry_meta : option (gmap string bool))
    (return_historical : bool) : PyM (option string) :=
  let smry_meta : option (gmap string bool) := None in
  let parts := py_split1 ":" vector in
  if return_historical then
    p0 ← list_getitem parts 0;
    let parts := <[0 := p0 +:+ "H"]> parts in
    let hist_vec := py_join ":" parts in
    r ← recurse hist_vec smry_meta false;
    mret (match r with None => None | Some _ => Some hist_vec end)
  else historical_vector_reverse smry_meta vector parts.

(** The recursion unrolled [n] times; beyond that Python's recursion
    limit is hit. *)
Fixpoint historical_vector_n (n : nat) :
    string -> option (gmap string bool) -> bool -> PyM (option string) :=
  match n with
  | O => fun _ _ _ => raise RecursionError
  | S n' => historical_vector_body (historical_vector_n n')
  end.

(** Two levels suffice: see [historical_vector_n_stable]. *)
Definition historical_vector (vector : string) (smry_meta : option (gmap string bool))
    (return_historical : bool) : PyM (option string) :=
  historical_vector_n 2 vector smry_meta return_historical.

(** ** Readings of the spec, to be compared with the code *)

(** The part of a string before the first occurrence of [c] (all of it
    when [c] does not occur). *)
Fixpoint prefix_until (c : ascii) (s : string) : string :=
  match s with
  | EmptyString => EmptyString
  | String a s' => if Ascii.eqb a c then EmptyString else String a (prefix_until c s')
  end.

(** The base portion of a vector code: the part before the first colon. *)
Definition spec_base (vector : string) : string := prefix_until ":" vector.

(** The node qualifier together with its colon, or nothing. *)
Definition spec_node_suffix (vector : string) : string :=
  match split_at_first ":" vector with
  | Some (_, node) => ":" +:+ node
  | None => EmptyString
  end.

(** The naming heuristic for historical vectors. *)
Definition spec_historical_name (base : string) : bool :=
  py_endswith base "H" &&
  (py_startswith base "F" || py_startswith base "G" || py_startswith base "W").

(** Reverse mode without a flag table, as the spec describes it. *)
Definition spec_reverse (vector : string) : option string :=
  if spec_historical_name (spec_base vector)
  then Some (py_drop_last (spec_base vector) +:+ spec_node_suffix vector)
  else None.

(** The candidate built by forward mode. *)
Definition spec_candidate (vector : string) : string :=
  spec_base vector +:+ "H" +:+ spec_node_suffix vector.

(** Type field of a metadata entry, when both exist. *)
Definition metadata_type (TERM : gmap string (gmap string string)) (name : string)
    : option string :=
  TERM !! name ≫= fun metadata => metadata !! "type".

(** The fixed-width region reading of an 8-character vector name. *)
Definition spec_region_base (vector_name : string) : string :=
  py_rstrip "_" (py_slice vector_name 0 5).
Definition spec_region_fip (vector_name : string) : string :=
  py_slice_from vector_name 5.

Definition spec_region_resolution (TERM : gmap string (gmap string string))
    (vector_name : string) : string * option string :=
  if (String.length vector_name =? 8)%nat then
    if decide (metadata_type TERM (spec_region_base vector_name) = Some "region")
    then (spec_region_base vector_name, Some (spec_region_fip vector_name))
    else (vector_name, None)
  else (vector_name, None).

(** Well-formed vector terminology: every entry has a description and a type. *)
Definition terminology_wf (TERM : gmap string (gmap string string)) : Prop :=
  forall name metadata, TERM !! name = Some metadata ->
    is_Some (metadata !! "description") /\ is_Some (metadata !! "type").

(** A terminology with a region vector [ROIP] and an unrelated
    8-character entry [ROIP_REG]. *)
Definition example_terminology : gmap string (gmap string string) :=
  {[ "ROIP" := {[ "description" := "Reservoir Oil In Place"; "type" := "region" ]};
     "ROIP_REG" := {[ "description" := "Other quantity"; "type" := "misc" ]} ]}.

(** A terminology whose entries miss fields. *)
Definition incomplete_terminology : gmap string (gmap string string) :=
  {[ "FOPR" := {[ "type" := "field" ]};
     "WOPR" := {[ "description" := "Oil Production Rate" ]} ]}.

(** Unfold the [PyM] combinators. *)
Ltac pym :=
  unfold run, mbind, mret, PyM_bind, PyM_ret, bind, ret, raise, list_getitem,
    dict_getitem, try_except_KeyError, warn in *.

(** ** Lemmas on the string operations *)

Lemma append_assoc_str (a b c : string) : (a +:+ b) +:+ c = a +:+ (b +:+ c).
Proof. induction a as [|x a IH]; simpl; [done | by rewrite IH]. Qed.

Lemma append_empty_r (a : string) : a +:+ EmptyString = a.
Proof. induction a as [|x a IH]; simpl; [done | by rewrite IH]. Qed.

Lemma length_append_str (a b : string) :
  String.length (a +:+ b) = (String.length a + String.length b)%nat.
Proof. induction a as [|x a IH]; simpl; [done | by rewrite IH]. Qed.

Lemma split_at_first_app (c : ascii) (a b : string) :
  split_at_first c (a +:+ b) =
  match split_at_first c a with
  | Some (l, r) => Some (l, r +:+ b)
  | None => match split_at_first c b with
            | Some (l, r) => Some (a +:+ l, r)
            | None => None
            end
  end.
Proof.
  induction a as [|x a IH]; simpl.
  - by destruct (split_at_first c b) as [[l r]|].
  - destruct (Ascii.eqb x c); [done|]. rewrite IH.
    destruct (split_at_first c a) as [[l r]|]; [done|].
    by destruct (split_at_first c b) as [[l r]|].
Qed.

Lemma split_at_first_Some (c : ascii) (s l r : string) :
  split_at_first c s = Some (l, r) ->
  s = l +:+ String c r /\ split_at_first c l = None.
Proof.
  revert l r. induction s as [|x s IH]; intros l r H; simpl in H; [done|].
  destruct (Ascii.eqb x c) eqn:E.
  - injection H as <- <-. apply Ascii.eqb_eq in E as ->. done.
  - destruct (split_at_first c s) as [[l' r']|] eqn:E'; [|done].
    injection H as <- <-. destruct (IH _ _ eq_refl) as [-> Hl].
    simpl. by rewrite E, Hl.
Qed.

Lemma split_at_first_prefix_until (c : ascii) (s : string) :
  prefix_until c s = match split_at_first c s with Some (l, _) => l | None => s end.
Proof.
  induction s as [|x s IH]; simpl; [done|].
  destruct (Ascii.eqb x c); [done|]. rewrite IH.
  by destruct (split_at_first c s) as [[l r]|].
Qed.

Lemma py_contains_split (c : ascii) (s : string) :
  py_contains c s = true -> exists l r, split_at_first c s = Some (l, r).
Proof.
  induction s as [|x s IH]; simpl; [done|].
  destruct (Ascii.eqb x c); simpl; [by eauto|].
  intros H. destruct (IH H) as (l & r & ->). by eauto.
Qed.

Lemma split_at_first_H (l : string) :
  split_at_first ":" l = None -> split_at_first ":" (l +:+ "H") = None.
Proof. intros H. rewrite split_at_first_app, H. done. Qed.

Lemma substring_append_length (l r : string) (k : nat) :
  substring (String.length l) k (l +:+ r) = substring 0 k r.
Proof. induction l as [|x l IH]; simpl; [done | apply IH]. Qed.

Lemma substring_prefix_length (l r : string) :
  substring 0 (String.length l) (l +:+ r) = l.
Proof. induction l as [|x l IH]; simpl; [by destruct r | by rewrite IH]. Qed.

Lemma py_endswith_H (l : string) : py_endswith (l +:+ "H") "H" = true.
Proof.
  unfold py_endswith, py_slice_from. rewrite length_append_str. simpl.
  replace (String.length l + 1 - 1)%nat with (String.length l) by lia.
  replace (String.length l + 1 - String.length l)%nat with 1%nat by lia.
  rewrite substring_append_length. simpl. by rewrite Nat.add_comm.
Qed.

Lemma py_drop_last_H (l : string) : py_drop_last (l +:+ "H") = l.
Proof.
  unfold py_drop_last. rewrite length_append_str. simpl.
  replace (String.length l + 1 - 1)%nat with (String.length l) by lia.
  apply substring_prefix_length.
Qed.

Lemma base_node_split (v : string) : v = spec_base v +:+ spec_node_suffix v.
Proof.
  unfold spec_base, spec_node_suffix. rewrite split_at_first_prefix_until.
  destruct (split_at_first ":" v) as [[l r]|] eqn:E.
  - by apply split_at_first_Some in E as [-> _].
  - by rewrite append_empty_r.
Qed.

Lemma split_at_first_candidate (v : string) :
  split_at_first ":" (spec_candidate v) =
  match split_at_first ":" v with
  | Some (l, r) => Some (l +:+ "H", r)
  | None => None
  end.
Proof.
  unfold spec_candidate, spec_base, spec_node_suffix.
  rewrite split_at_first_prefix_until.
  destruct (split_at_first ":" v) as [[l r]|] eqn:E.
  - apply split_at_first_Some in E as [_ Hl].
    rewrite <- append_assoc_str, split_at_first_app, split_at_first_H by done.
    simpl. by rewrite append_empty_r.
  - rewrite append_empty_r, split_at_first_app, E. done.
Qed.

Lemma spec_base_candidate (v : string) :
  spec_base (spec_candidate v) = spec_base v +:+ "H" /\
  spec_node_suffix (spec_candidate v) = spec_node_suffix v.
Proof.
  unfold spec_base at 1; unfold spec_node_suffix at 1.
  rewrite split_at_first_prefix_until, split_at_first_candidate.
  destruct (split_at_first ":" v) as [[l r]|] eqn:E.
  - unfold spec_base, spec_node_suffix. by rewrite split_at_first_prefix_until, E.
  - unfold spec_candidate, spec_base, spec_node_suffix.
    by rewrite split_at_first_prefix_until, E, append_empty_r.
Qed.

Lemma historical_vector_n_stable (n : nat) (vector : string)
    (smry_meta : option (gmap string bool)) (return_historical : bool) :
  historical_vector_n (S (S n)) vector smry_meta return_historical =
  historical_vector vector smry_meta return_historical.
Proof. by destruct return_historical. Qed.

(** [historical_vector] is a fixed point of the body of the Python function. *)
Lemma historical_vector_unfold (vector : string)
    (smry_meta : option (gmap string bool)) (return_historical : bool) :
  historical_vector vector smry_meta return_historical =
  historical_vector_body historical_vector vector smry_meta return_historical.
Proof. by destruct return_historical. Qed.

Lemma historical_vector_reverse_run (v : string) (smry_meta : option (gmap string bool)) :
  run (historical_vector v smry_meta false) = inr (spec_reverse v, []).
Proof.
  unfold run, historical_vector, historical_vector_n, historical_vector_body,
    historical_vector_reverse, spec_reverse, spec_base, spec_node_suffix, py_split1.
  rewrite split_at_first_prefix_until.
  destruct (split_at_first ":" v) as [[l r]|] eqn:E; pym; cbn.
  - unfold spec_historical_name. by destruct (_ && _).
  - unfold spec_historical_name. destruct (_ && _); [|done].
    by rewrite append_empty_r.
Qed.

Lemma historical_vector_forward_run (v : string) (smry_meta : option (gmap string bool)) :
  run (historical_vector v smry_meta true) =
  inr (match spec_reverse (spec_candidate v) with
       | Some _ => Some (spec_candidate v)
       | None => None
       end, []).
Proof.
  pose proof (historical_vector_reverse_run (spec_candidate v) None) as Hrev.
  unfold run, historical_vector, historical_vector_n, historical_vector_body in *.
  pym. destruct (split_at_first ":" v) as [[l r]|] eqn:E.
  - assert (py_split1 ":" v = [l; r]) as -> by (unfold py_split1; by rewrite E).
    assert (Hc : spec_candidate v = py_join ":" [l +:+ "H"; r]).
    { unfold spec_candidate, spec_base, spec_node_suffix.
      rewrite split_at_first_prefix_until, E. simpl. by rewrite append_assoc_str. }
    cbn -[historical_vector_reverse py_join]. rewrite <- Hc, Hrev.
    by destruct (spec_reverse _).
  - assert (py_split1 ":" v = [v]) as -> by (unfold py_split1; by rewrite E).
    assert (Hc : spec_candidate v = py_join ":" [v +:+ "H"]).
    { unfold spec_candidate, spec_base, spec_node_suffix.
      rewrite split_at_first_prefix_until, E. simpl. by rewrite ?append_empty_r. }
    cbn -[historical_vector_reverse py_join]. rewrite <- Hc, Hrev.
    by destruct (spec_reverse _).
Qed.

Lemma spec_reverse_candidate (v : string) :
  spec_reverse (spec_candidate v) =
  if spec_historical_name (spec_base v +:+ "H") then Some v else None.
Proof.
  unfold spec_reverse. destruct (spec_base_candidate v) as [-> ->].
  destruct (spec_historical_name _); [|done].
  by rewrite py_drop_last_H, <- base_node_split.
Qed.

(** ** Claims on [historical_vector] *)

(** C2: forward mode appends ["H"] to the part before the first colon,
    keeps the node qualifier, and returns that candidate exactly when
    reverse mode accepts it, i.e. when the candidate base ends with ["H"]
    and starts with ["F"], ["G"] or ["W"]; otherwise it returns [None].
    Concretely [WOPR] gives [WOPRH], [WOPRH] in reverse gives [WOPR] and
    [BPR] gives [None]. *)
Theorem historical_vector_forward_candidate :
  (forall (v : string) (smry_meta : option (gmap string bool)),
     run (historical_vector v smry_meta true) =
       inr (if spec_historical_name (spec_base v +:+ "H")
            then Some (spec_candidate v) else None, []) /\
     run (historical_vector v smry_meta true) =
       inr (match run (historical_vector (spec_candidate v) None false) with
            | inr (Some _, _) => Some (spec_candidate v)
            | _ => None
            end, [])) /\
  run (historical_vector "WOPR" None true) = inr (Some "WOPRH", []) /\
  run (historical_vector "WOPRH" None false) = inr (Some "WOPR", []) /\
  run (historical_vector "BPR" None true) = inr (None, []).
Proof.
  split; [|by vm_compute].
  intros v smry_meta.
  rewrite historical_vector_forward_run, historical_vector_reverse_run.
  unfold spec_reverse at 2. rewrite spec_reverse_candidate.
  destruct (spec_base_candidate v) as [-> _].
  by destruct (spec_historical_name _).
Qed.

(** C3 (as stated, refuted): with the flag table [{XH: true}], reverse
    mode on [XH] does not return [X]: the table is not consulted. *)
Lemma historical_vector_flag_table_counterexample :
  ({["XH" := true]} : gmap string bool) !! "XH" = Some true /\
  run (historical_vector "XH" (Some {["XH" := true]}) false) <> inr (Some "X", []).
Proof. split; [by vm_compute | vm_compute; congruence]. Qed.

(** C3 (amended): in reverse mode, whatever flag table is supplied, the
    result is the naming heuristic's: the base portion with its trailing
    ["H"] removed and the node qualifier kept when the base ends with
    ["H"] and starts with ["F"], ["G"] or ["W"], and [None] otherwise. *)
Theorem historical_vector_reverse_heuristic (v : string)
    (smry_meta : option (gmap string bool)) :
  run (historical_vector v smry_meta false) =
  inr (if spec_historical_name (spec_base v)
       then Some (py_drop_last (spec_base v) +:+ spec_node_suffix v)
       else None, []).
Proof. apply historical_vector_reverse_run. Qed.

(** C4: the flag table argument has no influence on the result. *)
Theorem historical_vector_smry_meta_irrelevant (v : string) (return_historical : bool)
    (smry_meta1 smry_meta2 : option (gmap string bool)) :
  historical_vector v smry_meta1 return_historical =
  historical_vector v smry_meta2 return_historical.
Proof. reflexivity. Qed.

(** C10: when forward mode returns [h], reverse mode on [h] gives back
    the original vector code, node qualifier included. *)
Theorem historical_vector_roundtrip (v h : string) (w : list string)
    (smry_meta smry_meta' : option (gmap string bool)) :
  run (historical_vector v smry_meta true) = inr (Some h, w) ->
  run (historical_vector h smry_meta' false) = inr (Some v, []).
Proof.
  rewrite historical_vector_forward_run, spec_reverse_candidate.
  destruct (spec_historical_name _) eqn:Hn; [|done].
  intros [= <- _]. rewrite historical_vector_reverse_run.
  unfold spec_reverse. destruct (spec_base_candidate v) as [-> ->].
  by rewrite Hn, py_drop_last_H, <- base_node_split.
Qed.

Lemma historical_vector_roundtrip_witness :
  run (historical_vector "WOPR:OP_1" None true) = inr (Some "WOPRH:OP_1", []) /\
  run (historical_vector "WOPRH:OP_1" None false) = inr (Some "WOPR:OP_1", []).
Proof.
  split; [reflexivity|].
  apply (historical_vector_roundtrip "WOPR:OP_1" "WOPRH:OP_1" [] None None).
  reflexivity.
Defined.

(** ** Lemmas on [simulation_vector_description] *)

Lemma split_at_first_contains (c : ascii) (s l r : string) :
  split_at_first c s = Some (l, r) -> py_contains c s = true.
Proof.
  revert l r. induction s as [|x s IH]; intros l r; simpl; [done|].
  destruct (Ascii.eqb x c); [done|]. simpl.
  destruct (split_at_first c s) as [[l' r']|] eqn:E; [|done].
  intros _. by eapply IH.
Qed.

Lemma not_contains_split (c : ascii) (s : string) :
  py_contains c s = false -> split_at_first c s = None.
Proof.
  destruct (split_at_first c s) as [[l r]|] eqn:E; [|done].
  apply split_at_first_contains in E. congruence.
Qed.

Lemma not_contains_prefix_until (c : ascii) (s : string) :
  py_contains c s = false -> prefix_until c s = s.
Proof.
  intros H. rewrite split_at_first_prefix_until, not_contains_split; done.
Qed.

Lemma region_vector_name_run (TERM : gmap string (gmap string string))
    (vector_name : string) (w : list string) :
  region_vector_name TERM vector_name w = inr (spec_region_resolution TERM vector_name, w).
Proof.
  unfold region_vector_name, spec_region_resolution, metadata_type,
    spec_region_base, spec_region_fip.
  destruct (String.length vector_name =? 8)%nat; [|done].
  pym. destruct (TERM !! _) as [metadata|]; cbn; [|done].
  destruct (metadata !! "type") as [type|]; cbn; [|done].
  destruct (String.eqb_spec type "region") as [->|Hne].
  - by rewrite decide_True.
  - rewrite decide_False; [done|]. congruence.
Qed.

(** Running the description once the name, node and resolved name are known. *)
Lemma simulation_vector_description_run (TERM : gmap string (gmap string string))
    (vector vector_name : string) (node : option string) :
  match split_at_first ":" vector with
  | Some (l, r) => (l, Some r)
  | None => (vector, None)
  end = (vector_name, node) ->
  simulation_vector_description TERM vector [] =
  let '(resolved, fip) := spec_region_resolution TERM vector_name in
  (if bool_decide (is_Some (TERM !! resolved)) then
     metadata ← dict_getitem TERM resolved;
     description ← dict_getitem metadata "description";
     match node with
     | Some nd =>
         type ← dict_getitem metadata "type";
         match fip with
         | Some f =>
             mret (description +:+ ", " +:+ py_replace_char "_" " " type +:+ " " +:+ f
                   +:+ " " +:+ nd)
         | None =>
             mret (description +:+ ", " +:+ py_replace_char "_" " " type +:+ " " +:+ nd)
         end
     | None => mret description
     end
   else
     _ ← warn (no_description_warning resolved);
     mret resolved) [].
Proof.
  intros Hsplit. unfold simulation_vector_description.
  destruct (py_contains ":" vector) eqn:Hc.
  - destruct (py_contains_split _ _ Hc) as (l & r & E).
    rewrite E in Hsplit. injection Hsplit as <- <-.
    unfold py_split1. rewrite E. pym. cbn -[region_vector_name].
    rewrite region_vector_name_run.
    by destruct (spec_region_resolution TERM l).
  - rewrite not_contains_split in Hsplit by done. injection Hsplit as <- <-.
    pym. cbn -[region_vector_name].
    rewrite region_vector_name_run.
    by destruct (spec_region_resolution TERM vector).
Qed.

(** ** Claims on [simulation_vector_description] *)

(** C1: a vector name of exactly 8 characters is read as a region vector:
    its first 5 characters without trailing underscores are the candidate
    base name and its last 3 characters the region array [fip]; the
    candidate and [fip] are kept when the candidate's entry has type
    ["region"], and otherwise the name is kept and [fip] dropped.  A name
    of any other length keeps no [fip]. *)
Theorem region_vector_name_resolution (TERM : gmap string (gmap string string))
    (vector_name : string) :
  run (region_vector_name TERM vector_name) =
  inr (if (String.length vector_name =? 8)%nat then
         if decide (metadata_type TERM (py_rstrip "_" (py_slice vector_name 0 5))
                    = Some "region")
         then (py_rstrip "_" (py_slice vector_name 0 5),
               Some (py_slice vector_name 5 8))
         else (vector_name, None)
       else (vector_name, None), []).
Proof.
  unfold run. rewrite region_vector_name_run.
  unfold spec_region_resolution, spec_region_base, spec_region_fip, py_slice_from, py_slice.
  destruct (String.length vector_name =? 8)%nat eqn:E; [|done].
  apply Nat.eqb_eq in E. rewrite E. done.
Qed.

(** C5 (as stated, refuted): [ROIP_REG] is a key of [example_terminology],
    but its description is not what [simulation_vector_description]
    returns for it: the name is read as the region vector [ROIP]. *)
Lemma simulation_vector_description_key_counterexample :
  example_terminology !! "ROIP_REG" =
    Some {[ "description" := "Other quantity"; "type" := "misc" ]} /\
  run (simulation_vector_description example_terminology "ROIP_REG") <>
    inr ("Other quantity", []).
Proof. split; [reflexivity | vm_compute; congruence]. Qed.

(** C5 (amended): for a key [B] without a colon whose entry has a
    description, the description is returned unchanged unless [B] has 8
    characters and its first 5 characters without trailing underscores
    name an entry of type ["region"]. *)
Theorem simulation_vector_description_key (TERM : gmap string (gmap string string))
    (B d : string) (metadata : gmap string string) :
  TERM !! B = Some metadata ->
  metadata !! "description" = Some d ->
  py_contains ":" B = false ->
  (String.length B <> 8 \/
   metadata_type TERM (py_rstrip "_" (py_slice B 0 5)) <> Some "region") ->
  run (simulation_vector_description TERM B) = inr (d, []).
Proof.
  intros HB Hd Hc Hreg. unfold run.
  rewrite (simulation_vector_description_run TERM B B None)
    by (by rewrite not_contains_split).
  assert (spec_region_resolution TERM B = (B, None)) as ->.
  { unfold spec_region_resolution, spec_region_base.
    destruct (String.length B =? 8)%nat eqn:E; [|done].
    apply Nat.eqb_eq in E. rewrite decide_False; [done|]. naive_solver. }
  rewrite bool_decide_eq_true_2 by (rewrite HB; by eexists).
  pym. rewrite HB. cbn. by rewrite Hd.
Qed.

Lemma simulation_vector_description_key_witness :
  run (simulation_vector_description example_terminology "ROIP") =
  inr ("Reservoir Oil In Place", []).
Proof.
  apply (simulation_vector_description_key example_terminology "ROIP"
           "Reservoir Oil In Place"
           {[ "description" := "Reservoir Oil In Place"; "type" := "region" ]}).
  - reflexivity.
  - reflexivity.
  - reflexivity.
  - left. simpl. lia.
Defined.

(** C6: with a node qualifier and a resolved name found in the table, the
    description is followed by [", {type} {fip} {node}"], or by
    [", {type} {node}"] without [fip], underscores of the type shown as
    spaces. *)
Theorem simulation_vector_description_node (TERM : gmap string (gmap string string))
    (vector vector_name node resolved d type : string) (fip : option string)
    (metadata : gmap string string) :
  split_at_first ":" vector = Some (vector_name, node) ->
  spec_region_resolution TERM vector_name = (resolved, fip) ->
  TERM !! resolved = Some metadata ->
  metadata !! "description" = Some d ->
  metadata !! "type" = Some type ->
  run (simulation_vector_description TERM vector) =
  inr (match fip with
       | Some f => d +:+ ", " +:+ py_replace_char "_" " " type +:+ " " +:+ f +:+ " " +:+ node
       | None => d +:+ ", " +:+ py_replace_char "_" " " type +:+ " " +:+ node
       end, []).
Proof.
  intros Hs Hr HT Hd Ht. unfold run.
  rewrite (simulation_vector_description_run TERM vector vector_name (Some node))
    by (by rewrite Hs).
  rewrite Hr. rewrite bool_decide_eq_true_2 by (rewrite HT; by eexists).
  pym. rewrite HT. cbn. rewrite Hd. cbn. rewrite Ht. cbn.
  by destruct fip.
Qed.

Lemma simulation_vector_description_node_witness :
  run (simulation_vector_description example_terminology "ROIP_REG:1") =
  inr ("Reservoir Oil In Place, region REG 1", []).
Proof.
  apply (simulation_vector_description_node example_terminology "ROIP_REG:1" "ROIP_REG"
           "1" "ROIP" "Reservoir Oil In Place" "region" (Some "REG")
           {[ "description" := "Reservoir Oil In Place"; "type" := "region" ]}).
  all: vm_compute; reflexivity.
Defined.

(** ** Claims on [simulation_unit_reformat] and [simulation_vector_base] *)

(** C7: for a known unit set the friendly unit is returned when the raw
    unit is mapped and the raw unit otherwise; an unknown unit set raises
    [KeyError]. *)
Theorem simulation_unit_reformat_lookup
    (UNITS : gmap string (gmap string string)) (ecl_unit unit_set : string) :
  run (simulation_unit_reformat UNITS ecl_unit unit_set) =
  match UNITS !! unit_set with
  | Some units =>
      inr (match units !! ecl_unit with Some friendly => friendly | None => ecl_unit end, [])
  | None => inl (KeyError unit_set)
  end.
Proof.
  unfold simulation_unit_reformat. pym.
  destruct (UNITS !! unit_set) as [units|]; cbn; [|done].
  by destruct (units !! ecl_unit).
Qed.

(** C8: the base name is the part before the first colon, cut at the
    first underscore; the function never raises, and a string without
    colon or underscore is returned unchanged. *)
Theorem simulation_vector_base_prefix :
  (forall vector : string,
     run (simulation_vector_base vector) =
     inr (prefix_until "_" (prefix_until ":" vector), [])) /\
  run (simulation_vector_base "WOPR:OP_1") = inr ("WOPR", []) /\
  run (simulation_vector_base "ROIP_REG:1") = inr ("ROIP", []) /\
  (forall vector : string,
     py_contains ":" vector = false -> py_contains "_" vector = false ->
     run (simulation_vector_base vector) = inr (vector, [])).
Proof.
  assert (Hbase : forall vector : string,
     run (simulation_vector_base vector) =
     inr (prefix_until "_" (prefix_until ":" vector), [])).
  { intros vector. unfold simulation_vector_base, py_split1. pym.
    rewrite !split_at_first_prefix_until.
    destruct (split_at_first ":" vector) as [[l r]|]; cbn;
      [destruct (split_at_first "_" l) as [[l' r']|] |
       destruct (split_at_first "_" vector) as [[l' r']|]]; done. }
  split; [done|]. split; [done|]. split; [done|].
  intros vector Hc Hu. rewrite Hbase.
  by rewrite (not_contains_prefix_until ":" vector Hc), (not_contains_prefix_until "_" vector Hu).
Qed.

Lemma simulation_vector_base_prefix_witness :
  run (simulation_vector_base "NOQUALIFIER") = inr ("NOQUALIFIER", []).
Proof.
  apply (proj2 (proj2 (proj2 simulation_vector_base_prefix))); reflexivity.
Defined.

(** ** No exception on any vector code *)

Lemma example_terminology_wf : terminology_wf example_terminology.
Proof.
  intros name metadata H. unfold example_terminology in H.
  apply lookup_insert_Some in H as [[_ <-]|[_ H]]; [split; by eexists|].
  apply lookup_singleton_Some in H as [_ <-]. split; by eexists.
Qed.

(** C9: with a well-formed terminology, [simulation_vector_description]
    returns a string for every input, and [historical_vector] returns a
    string or [None] for every input; neither raises. *)
Theorem vector_functions_never_raise (TERM : gmap string (gmap string string)) :
  terminology_wf TERM ->
  (forall vector : string, exists description warnings,
     run (simulation_vector_description TERM vector) = inr (description, warnings)) /\
  (forall (vector : string) (smry_meta : option (gmap string bool))
          (return_historical : bool),
     exists result, run (historical_vector vector smry_meta return_historical) = inr (result, [])).
Proof.
  intros Hwf. split.
  - intros vector. unfold run.
    rewrite (simulation_vector_description_run TERM vector
               (match split_at_first ":" vector with Some (l, _) => l | None => vector end)
               (match split_at_first ":" vector with Some (_, r) => Some r | None => None end))
      by (by destruct (split_at_first ":" vector) as [[l r]|]).
    destruct (spec_region_resolution TERM _) as [resolved fip].
    destruct (bool_decide_reflect (is_Some (TERM !! resolved))) as [[metadata HT]|_].
    + destruct (Hwf _ _ HT) as [[d Hd] [t Ht]].
      pym. rewrite HT. cbn. rewrite Hd. cbn.
      destruct (split_at_first ":" vector) as [[l r]|]; cbn; [|by eauto].
      rewrite Ht. cbn. destruct fip; by eauto.
    + pym. cbn. by eauto.
  - intros vector smry_meta [|].
    + rewrite historical_vector_forward_run. by eauto.
    + rewrite historical_vector_reverse_run. by eauto.
Qed.

Lemma vector_functions_never_raise_witness :
  exists description warnings,
    run (simulation_vector_description example_terminology "FOO:1") =
    inr (description, warnings).
Proof.
  apply (vector_functions_never_raise example_terminology example_terminology_wf).
Defined.

(** ** Further lemmas *)

Lemma prefix_until_no_c (c : ascii) (s : string) : py_contains c (prefix_until c s) = false.
Proof.
  induction s as [|x s IH]; simpl; [done|].
  destruct (Ascii.eqb x c) eqn:E; simpl; [done|]. by rewrite E, IH.
Qed.

Lemma prefix_until_keeps_no_d (c d : ascii) (s : string) :
  py_contains d s = false -> py_contains d (prefix_until c s) = false.
Proof.
  induction s as [|x s IH]; simpl; [done|].
  intros [Hx Hs]%orb_false_iff.
  destruct (Ascii.eqb x c); simpl; [done|]. by rewrite Hx, IH.
Qed.

Lemma prefix_until_is_prefix (c : ascii) (s : string) :
  String.prefix (prefix_until c s) s = true.
Proof.
  induction s as [|x s IH]; simpl; [done|].
  destruct (Ascii.eqb x c); simpl; [done|].
  destruct (ascii_dec x x); [done|congruence].
Qed.

Lemma string_prefix_trans (a b c : string) :
  String.prefix a b = true -> String.prefix b c = true -> String.prefix a c = true.
Proof.
  revert b c. induction a as [|x a IH]; intros b c; [by destruct c|].
  destruct b as [|y b]; [done|]. destruct c as [|z c]; [done|]. simpl.
  destruct (ascii_dec x y) as [->|]; [|done].
  destruct (ascii_dec y z) as [->|]; [|done]. apply IH.
Qed.

Lemma substring_split (s : string) (k : nat) :
  (k <= String.length s)%nat ->
  substring 0 k s +:+ substring k (String.length s - k) s = s.
Proof.
  revert k. induction s as [|x s IH]; intros k Hk; simpl in *.
  - destruct k; [done|lia].
  - destruct k as [|k]; simpl.
    + f_equal. clear. induction s as [|y s IH]; simpl; [done|].
      by rewrite IH.
    + f_equal. apply IH. lia.
Qed.

Lemma py_endswith_H_inv (b : string) :
  py_endswith b "H" = true -> py_drop_last b +:+ "H" = b.
Proof.
  unfold py_endswith, py_drop_last, py_slice_from. change (String.length "H") with 1%nat.
  intros [Heq Hlen]%andb_true_iff. apply Nat.leb_le in Hlen.
  apply String.eqb_eq in Heq.
  replace (String.length b - (String.length b - 1))%nat with 1%nat in Heq by lia.
  rewrite <- Heq.
  pose proof (substring_split b (String.length b - 1)) as Hs.
  replace (String.length b - (String.length b - 1))%nat with 1%nat in Hs by lia.
  apply Hs. lia.
Qed.

Lemma spec_base_no_colon (v : string) : split_at_first ":" (spec_base v) = None.
Proof.
  unfold spec_base. rewrite split_at_first_prefix_until.
  destruct (split_at_first ":" v) as [[l r]|] eqn:E; [|done].
  by apply split_at_first_Some in E as [_ ?].
Qed.

Lemma split_at_first_app_None_l (a b : string) :
  split_at_first ":" (a +:+ b) = None -> split_at_first ":" a = None.
Proof.
  rewrite split_at_first_app. by destruct (split_at_first ":" a) as [[l r]|].
Qed.

Lemma spec_base_node_app (b v : string) :
  split_at_first ":" b = None ->
  spec_base (b +:+ spec_node_suffix v) = b /\
  spec_node_suffix (b +:+ spec_node_suffix v) = spec_node_suffix v.
Proof.
  intros Hb. unfold spec_base. rewrite split_at_first_prefix_until.
  unfold spec_node_suffix.
  destruct (split_at_first ":" v) as [[l r]|] eqn:E.
  - rewrite split_at_first_app, Hb. simpl. by rewrite append_empty_r.
  - by rewrite append_empty_r, Hb.
Qed.

Lemma prefix_empty_l (s : string) : String.prefix "" s = true.
Proof. by destruct s. Qed.

Lemma spec_historical_name_H (b : string) :
  spec_historical_name (b +:+ "H") =
  py_startswith b "F" || py_startswith b "G" || py_startswith b "W".
Proof.
  unfold spec_historical_name. rewrite py_endswith_H. simpl.
  destruct b as [|x b]; [done|]. unfold py_startswith. simpl.
  by rewrite !prefix_empty_l.
Qed.

Lemma simulation_vector_base_run (vector : string) :
  run (simulation_vector_base vector) =
  inr (prefix_until "_" (prefix_until ":" vector), []).
Proof.
  unfold simulation_vector_base, py_split1. pym.
  rewrite !split_at_first_prefix_until.
  destruct (split_at_first ":" vector) as [[l r]|]; cbn;
    [destruct (split_at_first "_" l) as [[l' r']|] |
     destruct (split_at_first "_" vector) as [[l' r']|]]; done.
Qed.

(** [simulation_vector_description] run on the part before the colon and the node. *)
Ltac description_run TERM v :=
  rewrite (simulation_vector_description_run TERM v (spec_base v)
             (match split_at_first ":" v with Some (_, r) => Some r | None => None end))
    by (unfold spec_base; rewrite split_at_first_prefix_until;
        by destruct (split_at_first ":" v) as [[? ?]|]).

(** ** Further properties of [simulation_vector_description] *)

(** A vector whose resolved name is not in the terminology is described
    by the part before its colon (the node is dropped), and exactly one
    warning naming it is emitted. *)
Theorem simulation_vector_description_unknown (TERM : gmap string (gmap string string))
    (vector resolved : string) (fip : option string) :
  spec_region_resolution TERM (spec_base vector) = (resolved, fip) ->
  TERM !! resolved = None ->
  run (simulation_vector_description TERM vector) =
  inr (spec_base vector, [no_description_warning (spec_base vector)]).
Proof.
  intros Hr HT.
  assert (resolved = spec_base vector /\ fip = None) as [-> ->].
  { unfold spec_region_resolution, metadata_type in Hr.
    destruct (String.length _ =? 8)%nat; [|by simplify_eq].
    destruct (decide _) as [Ht|]; [|by simplify_eq].
    injection Hr as <- _. rewrite HT in Ht. done. }
  unfold run. description_run TERM vector. rewrite Hr.
  rewrite bool_decide_eq_false_2 by (rewrite HT; apply is_Some_None).
  by pym.
Qed.

Lemma simulation_vector_description_unknown_witness :
  run (simulation_vector_description example_terminology "XYZ:1") =
  inr ("XYZ", [no_description_warning "XYZ"]).
Proof.
  apply (simulation_vector_description_unknown example_terminology "XYZ:1" "XYZ" None);
    vm_compute; reflexivity.
Defined.

(** A found entry without a ["description"] field makes the function
    raise [KeyError("description")]. *)
Theorem simulation_vector_description_missing_description
    (TERM : gmap string (gmap string string)) (vector resolved : string)
    (fip : option string) (metadata : gmap string string) :
  spec_region_resolution TERM (spec_base vector) = (resolved, fip) ->
  TERM !! resolved = Some metadata ->
  metadata !! "description" = None ->
  run (simulation_vector_description TERM vector) = inl (KeyError "description").
Proof.
  intros Hr HT Hd. unfold run. description_run TERM vector. rewrite Hr.
  rewrite bool_decide_eq_true_2 by (rewrite HT; by eexists).
  pym. rewrite HT. cbn. by rewrite Hd.
Qed.

Lemma simulation_vector_description_missing_description_witness :
  run (simulation_vector_description incomplete_terminology "FOPR") =
  inl (KeyError "description").
Proof.
  apply (simulation_vector_description_missing_description incomplete_terminology "FOPR"
           "FOPR" None {[ "type" := "field" ]}); vm_compute; reflexivity.
Defined.

(** With a node, a found entry that has a description but no ["type"]
    field makes the function raise [KeyError("type")]. *)
Theorem simulation_vector_description_missing_type
    (TERM : gmap string (gmap string string)) (vector vector_name node resolved d : string)
    (fip : option string) (metadata : gmap string string) :
  split_at_first ":" vector = Some (vector_name, node) ->
  spec_region_resolution TERM vector_name = (resolved, fip) ->
  TERM !! resolved = Some metadata ->
  metadata !! "description" = Some d ->
  metadata !! "type" = None ->
  run (simulation_vector_description TERM vector) = inl (KeyError "type").
Proof.
  intros Hs Hr HT Hd Ht. unfold run.
  rewrite (simulation_vector_description_run TERM vector vector_name (Some node))
    by (by rewrite Hs).
  rewrite Hr, bool_decide_eq_true_2 by (rewrite HT; by eexists).
  pym. rewrite HT. cbn. rewrite Hd. cbn. by rewrite Ht.
Qed.

Lemma simulation_vector_description_missing_type_witness :
  run (simulation_vector_description incomplete_terminology "WOPR:OP_1") =
  inl (KeyError "type").
Proof.
  apply (simulation_vector_description_missing_type incomplete_terminology "WOPR:OP_1"
           "WOPR" "OP_1" "WOPR" "Oil Production Rate" None
           {[ "description" := "Oil Production Rate" ]}); vm_compute; reflexivity.
Defined.

(** Without a colon, a name resolving to an entry with a description
    yields that description alone: a region array found in an 8-character
    name is not shown. *)
Theorem simulation_vector_description_no_node (TERM : gmap string (gmap string string))
    (vector resolved d : string) (fip : option string) (metadata : gmap string string) :
  py_contains ":" vector = false ->
  spec_region_resolution TERM vector = (resolved, fip) ->
  TERM !! resolved = Some metadata ->
  metadata !! "description" = Some d ->
  run (simulation_vector_description TERM vector) = inr (d, []).
Proof.
  intros Hc Hr HT Hd. unfold run.
  rewrite (simulation_vector_description_run TERM vector vector None)
    by (by rewrite not_contains_split).
  rewrite Hr, bool_decide_eq_true_2 by (rewrite HT; by eexists).
  pym. rewrite HT. cbn. by rewrite Hd.
Qed.

Lemma simulation_vector_description_no_node_witness :
  run (simulation_vector_description example_terminology "ROIP_REG") =
  inr ("Reservoir Oil In Place", []).
Proof.
  apply (simulation_vector_description_no_node example_terminology "ROIP_REG" "ROIP"
           "Reservoir Oil In Place" (Some "REG")
           {[ "description" := "Reservoir Oil In Place"; "type" := "region" ]});
    vm_compute; reflexivity.
Defined.

(** Whenever the function returns, it has emitted no warning, or exactly
    one warning, about the string it returned. *)
Theorem simulation_vector_description_warnings (TERM : gmap string (gmap string string))
    (vector s : string) (warnings : list string) :
  run (simulation_vector_description TERM vector) = inr (s, warnings) ->
  warnings = [] \/ warnings = [no_description_warning s].
Proof.
  unfold run. description_run TERM vector.
  destruct (spec_region_resolution TERM _) as [resolved fip].
  destruct (bool_decide _); pym; cbn.
  - destruct (TERM !! resolved) as [metadata|]; cbn; [|done].
    destruct (metadata !! "description") as [d|]; cbn; [|done].
    destruct (split_at_first ":" vector) as [[l r]|]; cbn; [|intros [= _ <-]; by left].
    destruct (metadata !! "type") as [t|]; cbn; [|done].
    destruct fip; intros [= _ <-]; by left.
  - intros [= <- <-]. by right.
Qed.

Lemma simulation_vector_description_warnings_witness :
  run (simulation_vector_description example_terminology "XYZ:1") =
    inr ("XYZ", [no_description_warning "XYZ"]) /\
  ([no_description_warning "XYZ"] = [] \/
   [no_description_warning "XYZ"] = [no_description_warning "XYZ"]).
Proof.
  split; [vm_compute; reflexivity|].
  apply (simulation_vector_description_warnings example_terminology "XYZ:1").
  vm_compute. reflexivity.
Defined.

(** ** Further properties of [simulation_vector_base] *)

(** The base name is a prefix of the input without colon or underscore. *)
Theorem simulation_vector_base_shape (vector : string) :
  exists base, run (simulation_vector_base vector) = inr (base, []) /\
    String.prefix base vector = true /\
    py_contains ":" base = false /\ py_contains "_" base = false.
Proof.
  eexists. split; [apply simulation_vector_base_run|]. split; [|split].
  - eapply string_prefix_trans; apply prefix_until_is_prefix.
  - apply prefix_until_keeps_no_d, prefix_until_no_c.
  - apply prefix_until_no_c.
Qed.

(** Taking the base name twice changes nothing. *)
Theorem simulation_vector_base_idempotent (vector base : string) :
  run (simulation_vector_base vector) = inr (base, []) ->
  run (simulation_vector_base base) = inr (base, []).
Proof.
  rewrite simulation_vector_base_run. intros [= <-].
  rewrite simulation_vector_base_run.
  rewrite (not_contains_prefix_until ":" (prefix_until "_" _))
    by apply prefix_until_keeps_no_d, prefix_until_no_c.
  by rewrite (not_contains_prefix_until "_" (prefix_until "_" _))
    by apply prefix_until_no_c.
Qed.

Lemma simulation_vector_base_idempotent_witness :
  run (simulation_vector_base "ROIP") = inr ("ROIP", []).
Proof.
  apply (simulation_vector_base_idempotent "ROIP_REG:1" "ROIP"). reflexivity.
Defined.

(** ** Further properties of [historical_vector] *)

(** Forward mode succeeds exactly when the part before the colon starts
    with ["F"], ["G"] or ["W"]; an empty base gives [None]. *)
Theorem historical_vector_forward_first_char (vector : string)
    (smry_meta : option (gmap string bool)) :
  run (historical_vector vector smry_meta true) =
  inr (if py_startswith (spec_base vector) "F" || py_startswith (spec_base vector) "G"
          || py_startswith (spec_base vector) "W"
       then Some (spec_candidate vector) else None, []).
Proof.
  rewrite historical_vector_forward_run, spec_reverse_candidate, spec_historical_name_H.
  by destruct (_ || _).
Qed.

(** When reverse mode turns [v] into [u], forward mode turns [u] back
    into [v]. *)
Theorem historical_vector_reverse_forward (v u : string) (w : list string)
    (smry_meta smry_meta' : option (gmap string bool)) :
  run (historical_vector v smry_meta false) = inr (Some u, w) ->
  run (historical_vector u smry_meta' true) = inr (Some v, []).
Proof.
  rewrite historical_vector_reverse_run. unfold spec_reverse.
  destruct (spec_historical_name (spec_base v)) eqn:Hn; [|done].
  intros [= <- _].
  assert (Hb : py_drop_last (spec_base v) +:+ "H" = spec_base v).
  { apply py_endswith_H_inv. unfold spec_historical_name in Hn.
    by apply andb_true_iff in Hn as [? _]. }
  assert (Hnc : split_at_first ":" (py_drop_last (spec_base v)) = None).
  { apply (split_at_first_app_None_l _ "H"). rewrite Hb. apply spec_base_no_colon. }
  rewrite historical_vector_forward_run, spec_reverse_candidate.
  destruct (spec_base_node_app _ v Hnc) as [Hbase Hnode].
  rewrite Hbase, Hb, Hn. unfold spec_candidate. rewrite Hbase, Hnode.
  by rewrite <- append_assoc_str, Hb, <- base_node_split.
Qed.

Lemma historical_vector_reverse_forward_witness :
  run (historical_vector "WOPR:OP_1" None true) = inr (Some "WOPRH:OP_1", []).
Proof.
  apply (historical_vector_reverse_forward "WOPRH:OP_1" "WOPR:OP_1" [] None None).
  reflexivity.
Defined.
